(** * HTCondor REST API client (examples/rest_api_examples.py)

    A shallow embedding of the class [HTCondorAPI]: the constructor and its
    seven methods, over an explicit model of the [requests] session they
    drive.  The interpreter state holds the client object and the ordered
    log of the requests handed to the session; the remote end is an oracle
    that answers each request or fails to.

    The session is modelled at its interface, one entry of the log per call
    of [session.get] or [session.post] with the arguments of that call; how
    the library puts a request on the wire (encoding of the query, redirects,
    cookies, the connection pool) lies below the model. *)

From Stdlib Require Import ZArith Ascii String List Bool Lia DecimalString.
From stdpp Require Import base option strings gmap.

Set Warnings "-register-all".

Open Scope string_scope.
Open Scope list_scope.
Open Scope Z_scope.

(** ** Python values *)

(** A decoded JSON document, as Python's [json] module represents it:
    [None], [bool], [int], [float] (kept by its printed form), [str], [list]
    and [dict].  A [dict] keeps its insertion order, hence the association
    list. *)
Inductive json : Type :=
| JNull
| JBool (b : bool)
| JInt (n : Z)
| JFloat (repr : string)
| JString (s : string)
| JArray (items : list json)
| JObject (members : list (string * json)).

(** A Python [dict] with [str] keys, in insertion order. *)
Definition dict (V : Type) : Type := list (string * V).

(** [d[k] = v]: the value of an existing key is replaced where it stands, a
    new key goes to the end. *)
Fixpoint dict_set {V : Type} (k : string) (v : V) (d : dict V) : dict V :=
  match d with
  | [] => [(k, v)]
  | (k', v') :: d' =>
      if String.eqb k' k then (k', v) :: d' else (k', v') :: dict_set k v d'
  end.

(** [d.get(k)]. *)
Fixpoint dict_get {V : Type} (k : string) (d : dict V) : option V :=
  match d with
  | [] => None
  | (k', v) :: d' => if String.eqb k' k then Some v else dict_get k d'
  end.

(** [result.get(k)] on a decoded document; only a [dict] has keys. *)
Definition json_get (k : string) (j : json) : option json :=
  match j with
  | JObject members => dict_get k members
  | _ => None
  end.

(** Truth value of an [Optional[str]]: [None] and [''] are false. *)
Definition truthy (o : option string) : bool :=
  match o with
  | None => false
  | Some EmptyString => false
  | Some (String _ _) => true
  end.

(** The string held by a truthy [Optional[str]]. *)
Definition str_of (o : option string) : string := default "" o.

(** [s.rstrip(c)] for a single character [c]: every trailing [c] goes. *)
Fixpoint rstrip (c : ascii) (s : string) : string :=
  match s with
  | EmptyString => EmptyString
  | String a s' =>
      match rstrip c s' with
      | EmptyString => if Ascii.eqb a c then EmptyString else String a EmptyString
      | String _ _ as r => String a r
      end
  end.

(** [n] copies of the character [c]. *)
Fixpoint repeat_char (c : ascii) (n : nat) : string :=
  match n with
  | O => EmptyString
  | S n' => String c (repeat_char c n')
  end.

(** [s.endswith(c)] for a single character [c]. *)
Fixpoint ends_with (c : ascii) (s : string) : bool :=
  match s with
  | EmptyString => false
  | String a EmptyString => Ascii.eqb a c
  | String _ s' => ends_with c s'
  end.

(** ** The [requests] session, as the client uses it *)

Inductive http_method : Type := GET | POST.

(** [requests.Session]: the only attribute the client touches is
    [headers]. *)
Record Session : Type := { headers : gmap string string }.

(** One call of [Session.request]: the method, the URL, the session headers
    that go with it, and the [params=] and [json=] keyword arguments
    ([None] when the call does not pass them). *)
Record Request : Type := {
  req_method : http_method;
  req_url : string;
  req_headers : gmap string string;
  req_params : option (dict string);
  req_json : option json
}.

(** [requests.Response]: [status_code], and what [json()] decodes from the
    body ([None] when the body is not a JSON document). *)
Record Response : Type := {
  status_code : Z;
  decoded : option json
}.

(** What the transport makes of a request: no response at all, or one. *)
Inductive Reply : Type :=
| Unreachable
| Answered (response : Response).

(** The exceptions of [requests.exceptions] that can leave a method. *)
Inductive exn : Type :=
| HTTPError (response : Response)
| ConnectionError
| JSONDecodeError.

(** ** The client object and the interpreter state *)

Record HTCondorAPI : Type := {
  base_url : string;
  token : option string;
  session : Session
}.

Record State : Type := {
  self : HTCondorAPI;
  sent : list Request
}.

Inductive result (A : Type) : Type :=
| Return (a : A)
| Raise (e : exn).
Arguments Return {A} a.
Arguments Raise {A} e.

(** Statements run in a state monad with exceptions: a raised exception
    skips the rest and keeps the state reached so far. *)
Definition M (A : Type) : Type := State -> result A * State.

Definition ret {A : Type} (a : A) : M A := fun st => (Return a, st).

Definition bind {A B : Type} (m : M A) (k : A -> M B) : M B :=
  fun st =>
    match m st with
    | (Return a, st') => k a st'
    | (Raise e, st') => (Raise e, st')
    end.

Definition raise {A : Type} (e : exn) : M A := fun st => (Raise e, st).

Definition get_self : M HTCondorAPI := fun st => (Return (self st), st).

Definition set_self (c : HTCondorAPI) : M unit :=
  fun st => (Return tt, {| self := c; sent := sent st |}).

Declare Scope py_scope.
Delimit Scope py_scope with py.
Notation "x <- m ;; k" := (bind m (fun x => k))
  (at level 100, m at next level, right associativity) : py_scope.
Notation "m ;; k" := (bind m (fun _ => k))
  (at level 100, right associativity) : py_scope.
Open Scope py_scope.

(** ** Concrete environments, used to run the model *)

(** The headers a fresh [requests.Session] starts with. *)
Definition requests_default_headers : gmap string string :=
  <["User-Agent" := "python-requests/2.32.3"]>
  (<["Accept-Encoding" := "gzip, deflate"]>
  (<["Accept" := "*/*"]>
  (<["Connection" := "keep-alive"]> ∅))).

(** A server that answers every request with the given status and
    document. *)
Definition mock_server (status : Z) (doc : option json) : list Request -> Request -> Reply :=
  fun _ _ => Answered {| status_code := status; decoded := doc |}.

(** The document of the collector: two advertisements, [a] then [b]. *)
Definition two_ads : json :=
  JObject [("ads", JArray [JObject [("Name", JString "a")];
                           JObject [("Name", JString "b")]])].

(** A server that knows one path, [/api/v1/collector/ads] under [base],
    answers it with [two_ads] and anything else with 404. *)
Definition collector_server (base : string) : list Request -> Request -> Reply :=
  fun _ req =>
    if String.eqb (req_url req) (base +:+ "/api/v1/collector/ads")
    then Answered {| status_code := 200; decoded := Some two_ads |}
    else Answered {| status_code := 404; decoded := None |}.

(** A client object as [HTCondorAPI('http://localhost:8080')] leaves it, and
    nothing sent yet. *)
Definition example_state : State :=
  {| self := {| base_url := "http://localhost:8080"; token := None;
                session := {| headers := requests_default_headers |} |};
     sent := [] |}.

(** A server that cannot be reached. *)
Definition dead_server : list Request -> Request -> Reply :=
  fun _ _ => Unreachable.

(** ** The class *)

Section Client.

(** The remote end: given the requests sent so far and a new request, the
    reply to it. *)
Variable network : list Request -> Request -> Reply.

(** The headers of a fresh session ([requests.utils.default_headers()]). *)
Variable default_headers : gmap string string.

(** A fresh session carries no [Authorization] header. *)
Hypothesis default_no_auth : default_headers !! "Authorization" = None.

(** [requests.Session()]: a fresh session, nothing is sent. *)
Definition requests_Session : M Session :=
  ret {| headers := default_headers |}.

(** [session.headers.update({k: v})]. *)
Definition headers_update (k v : string) (s : Session) : Session :=
  {| headers := <[k := v]> (headers s) |}.

(** [Session.request]: the request goes out with the session's headers and
    is logged; the transport answers or raises. *)
Definition Session_request (m : http_method) (url : string)
    (params : option (dict string)) (body : option json) : M Response :=
  fun st =>
    let req := {| req_method := m; req_url := url;
                  req_headers := headers (session (self st));
                  req_params := params; req_json := body |} in
    let st' := {| self := self st; sent := sent st ++ [req] |} in
    match network (sent st) req with
    | Unreachable => (Raise ConnectionError, st')
    | Answered r => (Return r, st')
    end.

(** [session.post(url, json=data)]. *)
Definition Session_post (url : string) (data : json) : M Response :=
  Session_request POST url None (Some data).

(** [session.get(url, params=params)] and [session.get(url)]. *)
Definition Session_get (url : string) (params : option (dict string)) : M Response :=
  Session_request GET url params None.

(** [response.raise_for_status()], as [requests.models.Response] has it: a
    status code from 400 to 499 is a client error, one from 500 to 599 a
    server error, and either raises [HTTPError] holding the response; any
    other status code passes. *)
Definition raise_for_status (r : Response) : M unit :=
  if (400 <=? status_code r) && (status_code r <? 500) then raise (HTTPError r)
  else if (500 <=? status_code r) && (status_code r <? 600) then raise (HTTPError r)
  else ret tt.

(** [response.json()]. *)
Definition Response_json (r : Response) : M json :=
  match decoded r with
  | Some j => ret j
  | None => raise JSONDecodeError
  end.

(** Assignments to the attributes of [self]. *)
Definition set_base_url (v : string) : M unit :=
  c <- get_self ;;
  set_self {| base_url := v; token := token c; session := session c |}.

Definition set_token (v : option string) : M unit :=
  c <- get_self ;;
  set_self {| base_url := base_url c; token := v; session := session c |}.

Definition set_session (v : Session) : M unit :=
  c <- get_self ;;
  set_self {| base_url := base_url c; token := token c; session := v |}.

(** [HTCondorAPI.__init__(self, base_url, token=None)]. *)
Definition init (base_url0 : string) (token0 : option string) : M unit :=
  set_base_url (rstrip "/" base_url0) ;;
  set_token token0 ;;
  s <- requests_Session ;;
  set_session s ;;
  if truthy token0
  then c <- get_self ;;
       set_session (headers_update "Authorization" ("Bearer " +:+ str_of token0) (session c))
  else ret tt.

(** [hold_job(self, job_id, reason=None)]. *)
Definition hold_job (job_id : string) (reason : option string) : M json :=
  c <- get_self ;;
  let url := base_url c +:+ "/api/v1/jobs/" +:+ job_id +:+ "/hold" in
  let data : dict json := [] in
  let data := if truthy reason then dict_set "reason" (JString (str_of reason)) data else data in
  response <- Session_post url (JObject data) ;;
  raise_for_status response ;;
  Response_json response.

(** [release_job(self, job_id, reason=None)]. *)
Definition release_job (job_id : string) (reason : option string) : M json :=
  c <- get_self ;;
  let url := base_url c +:+ "/api/v1/jobs/" +:+ job_id +:+ "/release" in
  let data : dict json := [] in
  let data := if truthy reason then dict_set "reason" (JString (str_of reason)) data else data in
  response <- Session_post url (JObject data) ;;
  raise_for_status response ;;
  Response_json response.

(** [bulk_hold_jobs(self, constraint, reason=None)]. *)
Definition bulk_hold_jobs (constraint : string) (reason : option string) : M json :=
  c <- get_self ;;
  let url := base_url c +:+ "/api/v1/jobs/hold" in
  let data : dict json := [("constraint", JString constraint)] in
  let data := if truthy reason then dict_set "reason" (JString (str_of reason)) data else data in
  response <- Session_post url (JObject data) ;;
  raise_for_status response ;;
  Response_json response.

(** [bulk_release_jobs(self, constraint, reason=None)]. *)
Definition bulk_release_jobs (constraint : string) (reason : option string) : M json :=
  c <- get_self ;;
  let url := base_url c +:+ "/api/v1/jobs/release" in
  let data : dict json := [("constraint", JString constraint)] in
  let data := if truthy reason then dict_set "reason" (JString (str_of reason)) data else data in
  response <- Session_post url (JObject data) ;;
  raise_for_status response ;;
  Response_json response.

(** [query_collector_ads(self, constraint=None)]. *)
Definition query_collector_ads (constraint : option string) : M json :=
  c <- get_self ;;
  let url := base_url c +:+ "/api/v1/collector/ads" in
  let params : dict string := [] in
  let params := if truthy constraint then dict_set "constraint" (str_of constraint) params else params in
  response <- Session_get url (Some params) ;;
  raise_for_status response ;;
  Response_json response.

(** [query_collector_ads_by_type(self, ad_type, constraint=None)]. *)
Definition query_collector_ads_by_type (ad_type : string) (constraint : option string) : M json :=
  c <- get_self ;;
  let url := base_url c +:+ "/api/v1/collector/ads/" +:+ ad_type in
  let params : dict string := [] in
  let params := if truthy constraint then dict_set "constraint" (str_of constraint) params else params in
  response <- Session_get url (Some params) ;;
  raise_for_status response ;;
  Response_json response.

(** [get_collector_ad(self, ad_type, name)]. *)
Definition get_collector_ad (ad_type name : string) : M json :=
  c <- get_self ;;
  let url := base_url c +:+ "/api/v1/collector/ads/" +:+ ad_type +:+ "/" +:+ name in
  response <- Session_get url None ;;
  raise_for_status response ;;
  Response_json response.

(** ** Calls *)

(** A call of one of the seven methods, with its arguments. *)
Inductive Call : Type :=
| HoldJob (job_id : string) (reason : option string)
| ReleaseJob (job_id : string) (reason : option string)
| BulkHoldJobs (constraint : string) (reason : option string)
| BulkReleaseJobs (constraint : string) (reason : option string)
| QueryCollectorAds (constraint : option string)
| QueryCollectorAdsByType (ad_type : string) (constraint : option string)
| GetCollectorAd (ad_type name : string).

Definition invoke (c : Call) : M json :=
  match c with
  | HoldJob job_id reason => hold_job job_id reason
  | ReleaseJob job_id reason => release_job job_id reason
  | BulkHoldJobs constraint reason => bulk_hold_jobs constraint reason
  | BulkReleaseJobs constraint reason => bulk_release_jobs constraint reason
  | QueryCollectorAds constraint => query_collector_ads constraint
  | QueryCollectorAdsByType ad_type constraint => query_collector_ads_by_type ad_type constraint
  | GetCollectorAd ad_type name => get_collector_ad ad_type name
  end.

(** A caller that makes the calls of [cs] one after the other on the same
    client and goes on after a failed call, as [main] does with its
    [try]/[except] around each call; the state it ends in. *)
Fixpoint run_calls (cs : list Call) (st : State) : State :=
  match cs with
  | [] => st
  | c :: cs' => run_calls cs' (snd (invoke c st))
  end.

(** The state once the constructor has run on [st]. *)
Definition constructed (base_url0 : string) (token0 : option string) (st : State) : State :=
  snd (init base_url0 token0 st).

(** The request a call builds on the client [cl], method by method. *)
Definition request_of (cl : HTCondorAPI) (c : Call) : Request :=
  let body (fixed : dict json) (reason : option string) : option json :=
    Some (JObject (if truthy reason
                   then dict_set "reason" (JString (str_of reason)) fixed
                   else fixed)) in
  let query (constraint : option string) : option (dict string) :=
    Some (if truthy constraint then [("constraint", str_of constraint)] else []) in
  let mk (m : http_method) (path : string) params data : Request :=
    {| req_method := m; req_url := base_url cl +:+ path;
       req_headers := headers (session cl);
       req_params := params; req_json := data |} in
  match c with
  | HoldJob job_id reason =>
      mk POST ("/api/v1/jobs/" +:+ job_id +:+ "/hold") None (body [] reason)
  | ReleaseJob job_id reason =>
      mk POST ("/api/v1/jobs/" +:+ job_id +:+ "/release") None (body [] reason)
  | BulkHoldJobs constraint reason =>
      mk POST "/api/v1/jobs/hold" None (body [("constraint", JString constraint)] reason)
  | BulkReleaseJobs constraint reason =>
      mk POST "/api/v1/jobs/release" None (body [("constraint", JString constraint)] reason)
  | QueryCollectorAds constraint =>
      mk GET "/api/v1/collector/ads" (query constraint) None
  | QueryCollectorAdsByType ad_type constraint =>
      mk GET ("/api/v1/collector/ads/" +:+ ad_type) (query constraint) None
  | GetCollectorAd ad_type name =>
      mk GET ("/api/v1/collector/ads/" +:+ ad_type +:+ "/" +:+ name) None None
  end.

(** The status codes [raise_for_status] raises on. *)
Definition error_status (code : Z) : bool :=
  (400 <=? code) && (code <? 600).

(** What a method makes of the reply to its request. *)
Definition settle (reply : Reply) : result json :=
  match reply with
  | Unreachable => Raise ConnectionError
  | Answered r =>
      if error_status (status_code r)
      then Raise (HTTPError r)
      else match decoded r with
           | Some j => Return j
           | None => Raise JSONDecodeError
           end
  end.

(** The calls of the four job methods; the other three query the
    collector. *)
Definition is_job_call (c : Call) : bool :=
  match c with
  | HoldJob _ _ | ReleaseJob _ _ | BulkHoldJobs _ _ | BulkReleaseJobs _ _ => true
  | QueryCollectorAds _ | QueryCollectorAdsByType _ _ | GetCollectorAd _ _ => false
  end.

(** ** The script: [main] *)

(** What one [print] call writes.  The text of [json.dumps(j, indent=2)]
    and of [str(e)] for an exception [e] is the library's; the model
    keeps the value printed. *)
Inductive printed : Type :=
| Text (line : string)
| JsonDump (j : json)
| ErrorOf (e : exn).

(** The exceptions of the script: those of [requests.exceptions], all of
    them subclasses of [RequestException], and the built-in ones that
    reading a result can raise. *)
Inductive pyexn : Type :=
| RequestException (e : exn)
| AttributeError
| TypeError
| KeyError
| IndexError.

(** The script's state: the client with the requests sent, and the
    standard output. *)
Record Process : Type := {
  world : State;
  stdout : list printed
}.

Inductive outcome (A : Type) : Type :=
| Fine (a : A)
| Thrown (e : pyexn).
#[global] Arguments Fine {A} a.
#[global] Arguments Thrown {A} e.

Definition P (A : Type) : Type := Process -> outcome A * Process.

Definition pret {A : Type} (a : A) : P A := fun p => (Fine a, p).

Definition pbind {A B : Type} (m : P A) (k : A -> P B) : P B :=
  fun p =>
    match m p with
    | (Fine a, p') => k a p'
    | (Thrown e, p') => (Thrown e, p')
    end.

Definition throw {A : Type} (e : pyexn) : P A := fun p => (Thrown e, p).

Declare Scope main_scope.
Delimit Scope main_scope with main.
Notation "x <- m ;; k" := (pbind m (fun x => k))
  (at level 100, m at next level, right associativity) : main_scope.
Notation "m ;; k" := (pbind m (fun _ => k))
  (at level 100, right associativity) : main_scope.

(** [print(...)]. *)
Definition py_print (x : printed) : P unit :=
  fun p => (Fine tt, {| world := world p; stdout := stdout p ++ [x] |}).

(** A statement of the class, run by the script. *)
Definition call {A : Type} (m : M A) : P A :=
  fun p =>
    match m (world p) with
    | (Return a, st) => (Fine a, {| world := st; stdout := stdout p |})
    | (Raise e, st) => (Thrown (RequestException e), {| world := st; stdout := stdout p |})
    end.

(** [try: body  except requests.exceptions.RequestException as e: handler]:
    any other exception passes through. *)
Definition try_except (body : P unit) (handler : exn -> P unit) : P unit :=
  fun p =>
    match body p with
    | (Thrown (RequestException e), p') => handler e p'
    | other => other
    end.

(** [j.get(k, dflt)]: only a [dict] has [get]. *)
Definition py_get (j : json) (k : string) (dflt : json) : P json :=
  match j with
  | JObject members => pret (default dflt (dict_get k members))
  | _ => throw AttributeError
  end.

(** [len(j)]: of a [list], a [dict] (its keys are distinct) or a [str]. *)
Definition py_len (j : json) : P nat :=
  match j with
  | JArray items => pret (List.length items)
  | JObject members => pret (List.length members)
  | JString v => pret (String.length v)
  | _ => throw TypeError
  end.

(** [bool(j)]. *)
Definition py_bool (j : json) : bool :=
  match j with
  | JNull => false
  | JBool b => b
  | JInt n => negb (n =? 0)
  | JFloat repr => negb (String.eqb repr "0.0" || String.eqb repr "-0.0")
  | JString v => negb (String.eqb v "")
  | JArray items => match items with [] => false | _ :: _ => true end
  | JObject members => match members with [] => false | _ :: _ => true end
  end.

(** [j[k]] for a [str] key [k]. *)
Definition py_getitem (j : json) (k : string) : P json :=
  match j with
  | JObject members =>
      match dict_get k members with
      | Some v => pret v
      | None => throw KeyError
      end
  | _ => throw TypeError
  end.

(** [j[0]]: the first item of a [list], the first character of a [str]; a
    [dict] decoded from JSON has no key [0]. *)
Definition py_first (j : json) : P json :=
  match j with
  | JArray (x :: _) => pret x
  | JArray [] => throw IndexError
  | JString (String a _) => pret (JString (String a ""))
  | JString EmptyString => throw IndexError
  | JObject _ => throw KeyError
  | _ => throw TypeError
  end.

(** [str(n)] for a length [n]. *)
Definition decimal (n : nat) : string := NilZero.string_of_uint (Nat.to_uint n).

(** The double quote character, as a string. *)
Definition dquote : string := String "034" "".

(** The parsed command line: [args.url], [args.token], [args.job_id]. *)
Record Args : Type := {
  args_url : string;
  args_token : option string;
  args_job_id : string
}.

(** The command line without options, by the defaults of the parser. *)
Definition default_args : Args :=
  {| args_url := "http://localhost:8080"; args_token := None; args_job_id := "123.0" |}.

(** Example 1: hold a specific job. *)
Definition example_1 (args : Args) : P unit :=
  (py_print (Text "1. Hold a specific job:") ;;
   try_except
     (result <- call (hold_job (args_job_id args) (Some "Holding for maintenance")) ;;
      py_print (JsonDump result))
     (fun e => py_print (ErrorOf e)) ;;
   py_print (Text ""))%main.

(** Example 2: release a specific job. *)
Definition example_2 (args : Args) : P unit :=
  (py_print (Text "2. Release a held job:") ;;
   try_except
     (result <- call (release_job (args_job_id args) (Some "Maintenance complete")) ;;
      py_print (JsonDump result))
     (fun e => py_print (ErrorOf e)) ;;
   py_print (Text ""))%main.

(** Example 3: bulk hold jobs, with the constraint [Owner == "alice"]. *)
Definition example_3 : P unit :=
  (py_print (Text "3. Hold all jobs for user 'alice':") ;;
   try_except
     (result <- call (bulk_hold_jobs ("Owner == " +:+ dquote +:+ "alice" +:+ dquote)
                        (Some "Bulk maintenance")) ;;
      py_print (JsonDump result))
     (fun e => py_print (ErrorOf e)) ;;
   py_print (Text ""))%main.

(** Example 4: bulk release jobs. *)
Definition example_4 : P unit :=
  (py_print (Text "4. Release all held jobs:") ;;
   try_except
     (result <- call (bulk_release_jobs "JobStatus == 5" None) ;;
      py_print (JsonDump result))
     (fun e => py_print (ErrorOf e)) ;;
   py_print (Text ""))%main.

(** Example 5: query all collector ads. *)
Definition example_5 : P unit :=
  (py_print (Text "5. Query all collector ads:") ;;
   try_except
     (result <- call (query_collector_ads None) ;;
      ads <- py_get result "ads" (JArray []) ;;
      n <- py_len ads ;;
      py_print (Text ("Found " +:+ decimal n +:+ " ads")) ;;
      ads <- py_get result "ads" JNull ;;
      if py_bool ads
      then py_print (Text "First ad:") ;;
           ads <- py_getitem result "ads" ;;
           first <- py_first ads ;;
           py_print (JsonDump first)
      else pret tt)
     (fun e => py_print (ErrorOf e)) ;;
   py_print (Text ""))%main.

(** Example 6: query schedd ads. *)
Definition example_6 : P unit :=
  (py_print (Text "6. Query schedd advertisements:") ;;
   try_except
     (result <- call (query_collector_ads_by_type "schedd" None) ;;
      ads <- py_get result "ads" (JArray []) ;;
      n <- py_len ads ;;
      py_print (Text ("Found " +:+ decimal n +:+ " schedd ads")))
     (fun e => py_print (ErrorOf e)) ;;
   py_print (Text ""))%main.

(** Example 7: query startd ads with a constraint. *)
Definition example_7 : P unit :=
  (py_print (Text "7. Query startd ads for machines with >8 CPUs:") ;;
   try_except
     (result <- call (query_collector_ads_by_type "startd" (Some "Cpus > 8")) ;;
      ads <- py_get result "ads" (JArray []) ;;
      n <- py_len ads ;;
      py_print (Text ("Found " +:+ decimal n +:+ " matching ads")))
     (fun e => py_print (ErrorOf e)) ;;
   py_print (Text ""))%main.

(** Example 8: get a specific schedd ad. *)
Definition example_8 : P unit :=
  (py_print (Text "8. Get specific schedd by name:") ;;
   try_except
     (result <- call (get_collector_ad "schedd" "schedd@host.example.com") ;;
      py_print (JsonDump result))
     (fun e => py_print (ErrorOf e)) ;;
   py_print (Text ""))%main.

(** [main()], from the parsed arguments on. *)
Definition main (args : Args) : P unit :=
  (call (init (args_url args) (args_token args)) ;;
   py_print (Text (repeat_char "=" 60)) ;;
   py_print (Text "HTCondor REST API Examples (Python)") ;;
   py_print (Text (repeat_char "=" 60)) ;;
   py_print (Text "") ;;
   example_1 args ;;
   example_2 args ;;
   example_3 ;;
   example_4 ;;
   example_5 ;;
   example_6 ;;
   example_7 ;;
   example_8 ;;
   py_print (Text (repeat_char "=" 60)) ;;
   py_print (Text "Examples complete") ;;
   py_print (Text (repeat_char "=" 60)))%main.

(** The eight calls of [main], in the order it makes them. *)
Definition main_calls (args : Args) : list Call :=
  [ HoldJob (args_job_id args) (Some "Holding for maintenance");
    ReleaseJob (args_job_id args) (Some "Maintenance complete");
    BulkHoldJobs ("Owner == " +:+ dquote +:+ "alice" +:+ dquote) (Some "Bulk maintenance");
    BulkReleaseJobs "JobStatus == 5" None;
    QueryCollectorAds None;
    QueryCollectorAdsByType "schedd" None;
    QueryCollectorAdsByType "startd" (Some "Cpus > 8");
    GetCollectorAd "schedd" "schedd@host.example.com" ].

(** A document that lists advertisements as the script reads them: an
    object whose [ads], when it has one, is a list. *)
Definition is_listing (doc : json) : bool :=
  match doc with
  | JObject members =>
      match dict_get "ads" members with
      | None => true
      | Some (JArray _) => true
      | Some _ => false
      end
  | _ => false
  end.

(** The script about to start on a terminal that shows nothing yet. *)
Definition example_process : Process :=
  {| world := example_state; stdout := [] |}.

(** What [main] prints before the examples and after them. *)
Definition banner : list printed :=
  [ Text (repeat_char "=" 60); Text "HTCondor REST API Examples (Python)";
    Text (repeat_char "=" 60); Text "" ].

Definition footer : list printed :=
  [ Text (repeat_char "=" 60); Text "Examples complete"; Text (repeat_char "=" 60) ].

(** What an example that prints its result as it is writes, given the
    outcome of its call. *)
Definition dump_lines (title : string) (r : result json) : list printed :=
  [ Text title;
    match r with
    | Return doc => JsonDump doc
    | Raise e => ErrorOf e
    end;
    Text "" ].

(** How an example that reads the [ads] of its result can end, given the
    call [c] it makes in the state [st]: with [res], having printed [out]
    after its title. *)
Definition reads_ads (c : Call) (st : State) (res : outcome unit) (out : list printed) : Prop :=
  (forall x : exn, res <> Thrown (RequestException x)) /\
  (forall e : exn,
      fst (invoke c st) = Raise e -> res = Fine tt /\ out = [ErrorOf e; Text ""]) /\
  (forall doc : json,
      fst (invoke c st) = Return doc -> is_listing doc = true -> res = Fine tt) /\
  (forall doc : json,
      fst (invoke c st) = Return doc -> (forall m, doc <> JObject m) ->
      res = Thrown AttributeError /\ out = []).

(** ** Strings *)

Lemma rstrip_split (c : ascii) (s : string) :
  exists n : nat, s = rstrip c s +:+ repeat_char c n.
Proof.
  induction s as [|a s' [n IH]]; simpl.
  - exists O. reflexivity.
  - destruct (rstrip c s') as [|b r] eqn:E.
    + destruct (Ascii.eqb_spec a c) as [->|Hne].
      * exists (S n). rewrite IH at 1. reflexivity.
      * exists n. rewrite IH at 1. reflexivity.
    + exists n. rewrite IH at 1. reflexivity.
Qed.

Lemma rstrip_ends (c : ascii) (s : string) :
  ends_with c (rstrip c s) = false.
Proof.
  induction s as [|a s' IH]; simpl; [reflexivity|].
  destruct (rstrip c s') as [|b r] eqn:E.
  - destruct (Ascii.eqb_spec a c) as [->|Hne]; simpl; [reflexivity|].
    now apply Ascii.eqb_neq.
  - exact IH.
Qed.

(** ** One exchange *)

Lemma error_status_iff (code : Z) :
  error_status code = true <-> 400 <= code < 600.
Proof. unfold error_status. rewrite andb_true_iff, Z.leb_le, Z.ltb_lt. reflexivity. Qed.

Lemma raise_for_status_run (r : Response) (st : State) :
  raise_for_status r st
  = (if error_status (status_code r) then Raise (HTTPError r) else Return tt, st).
Proof.
  unfold raise_for_status, error_status.
  destruct (400 <=? status_code r) eqn:H400, (status_code r <? 500) eqn:H500,
    (500 <=? status_code r) eqn:H500', (status_code r <? 600) eqn:H600;
    try reflexivity;
    rewrite ?Z.leb_le, ?Z.leb_gt, ?Z.ltb_lt, ?Z.ltb_ge in *; lia.
Qed.

(** The tail every method ends with: send, check the status, decode. *)
Lemma exchange_run (m : http_method) (url : string)
    (params : option (dict string)) (body : option json) (st : State) :
  let req := {| req_method := m; req_url := url;
                req_headers := headers (session (self st));
                req_params := params; req_json := body |} in
  (response <- Session_request m url params body ;;
   raise_for_status response ;;
   Response_json response) st
  = (settle (network (sent st) req),
     {| self := self st; sent := sent st ++ [req] |}).
Proof.
  intros req. unfold bind, Session_request. fold req.
  destruct (network (sent st) req) as [|r]; simpl; [reflexivity|].
  rewrite raise_for_status_run.
  destruct (error_status (status_code r)); simpl; [reflexivity|].
  unfold Response_json. destruct (decoded r); reflexivity.
Qed.

Lemma invoke_run (c : Call) (st : State) :
  invoke c st
  = (settle (network (sent st) (request_of (self st) c)),
     {| self := self st; sent := sent st ++ [request_of (self st) c] |}).
Proof.
  destruct c as [j r|j r|k r|k r|k|t k|t n]; simpl;
    unfold hold_job, release_job, bulk_hold_jobs, bulk_release_jobs,
      query_collector_ads, query_collector_ads_by_type, get_collector_ad,
      Session_post, Session_get;
    unfold bind at 1; simpl; rewrite exchange_run; simpl;
    try (destruct (truthy r)); try (destruct (truthy k)); reflexivity.
Qed.

Lemma invoke_sent (c : Call) (st : State) :
  sent (snd (invoke c st)) = sent st ++ [request_of (self st) c].
Proof. now rewrite invoke_run. Qed.

Lemma invoke_self (c : Call) (st : State) : self (snd (invoke c st)) = self st.
Proof. now rewrite invoke_run. Qed.

Lemma run_calls_self (cs : list Call) (st : State) :
  self (run_calls cs st) = self st.
Proof.
  revert st. induction cs as [|c cs IH]; intros st; simpl; [reflexivity|].
  now rewrite IH, invoke_self.
Qed.

Lemma run_calls_sent (cs : list Call) (st : State) :
  sent (run_calls cs st) = sent st ++ map (request_of (self st)) cs.
Proof.
  revert st. induction cs as [|c cs IH]; intros st; simpl.
  - now rewrite app_nil_r.
  - rewrite IH, invoke_self, invoke_sent, <- app_assoc. reflexivity.
Qed.

Lemma request_of_headers (cl : HTCondorAPI) (c : Call) :
  req_headers (request_of cl c) = headers (session cl).
Proof. destruct c; reflexivity. Qed.

(** ** Requests of the single methods *)

(** C1 (amended): for every job identifier and every reason that is absent
    or a non-empty string, [hold_job] hands exactly one request to the
    session: a POST to [{base_url}/api/v1/jobs/{id}/hold] whose JSON body is
    the empty object when no reason is given and [{"reason": value}] when a
    non-empty reason is given. *)
Theorem hold_job_request (job_id : string) (reason : option string) (st : State) :
  reason <> Some "" ->
  sent (snd (hold_job job_id reason st))
  = sent st ++
    [ {| req_method := POST;
         req_url := base_url (self st) +:+ "/api/v1/jobs/" +:+ job_id +:+ "/hold";
         req_headers := headers (session (self st));
         req_params := None;
         req_json := Some (JObject match reason with
                                   | None => []
                                   | Some value => [("reason", JString value)]
                                   end) |} ].
Proof.
  intros Hreason. change (hold_job job_id reason) with (invoke (HoldJob job_id reason)).
  rewrite invoke_sent. destruct reason as [[|a v]|]; [congruence | reflexivity | reflexivity].
Qed.

(** C3: for every constraint, [bulk_hold_jobs(constraint)] without a reason
    hands exactly one request to the session: a POST to
    [{base_url}/api/v1/jobs/hold] whose JSON body is exactly
    [{"constraint": constraint}], with no [reason] key. *)
Theorem bulk_hold_jobs_request (constraint : string) (st : State) :
  sent (snd (bulk_hold_jobs constraint None st))
  = sent st ++
    [ {| req_method := POST;
         req_url := base_url (self st) +:+ "/api/v1/jobs/hold";
         req_headers := headers (session (self st));
         req_params := None;
         req_json := Some (JObject [("constraint", JString constraint)]) |} ].
Proof.
  change (bulk_hold_jobs constraint None) with (invoke (BulkHoldJobs constraint None)).
  now rewrite invoke_sent.
Qed.

(** C4: [query_collector_ads()] sends one GET to
    [{base_url}/api/v1/collector/ads] whose query parameters are empty, so
    without a [constraint] parameter; [query_collector_ads("Cpus > 8")]
    sends the same GET with the one parameter [constraint] holding
    ["Cpus > 8"] as given. *)
Theorem query_collector_ads_request (st : State) :
  sent (snd (query_collector_ads None st))
  = sent st ++
    [ {| req_method := GET;
         req_url := base_url (self st) +:+ "/api/v1/collector/ads";
         req_headers := headers (session (self st));
         req_params := Some [];
         req_json := None |} ]
  /\
  sent (snd (query_collector_ads (Some "Cpus > 8") st))
  = sent st ++
    [ {| req_method := GET;
         req_url := base_url (self st) +:+ "/api/v1/collector/ads";
         req_headers := headers (session (self st));
         req_params := Some [("constraint", "Cpus > 8")];
         req_json := None |} ].
Proof.
  split.
  - change (query_collector_ads None) with (invoke (QueryCollectorAds None)).
    now rewrite invoke_sent.
  - change (query_collector_ads (Some "Cpus > 8"))
      with (invoke (QueryCollectorAds (Some "Cpus > 8"))).
    now rewrite invoke_sent.
Qed.

(** C5: [get_collector_ad(ad_type, name)] hands exactly one request to the
    session: a GET to [{base_url}/api/v1/collector/ads/{ad_type}/{name}]
    with the two segments as they were passed, no JSON body and no query
    parameters; for ["schedd"] and ["schedd@host.example.com"] the URL is
    [{base_url}/api/v1/collector/ads/schedd/schedd@host.example.com]. *)
Theorem get_collector_ad_request (ad_type name : string) (st : State) :
  sent (snd (get_collector_ad ad_type name st))
  = sent st ++
    [ {| req_method := GET;
         req_url := base_url (self st) +:+ "/api/v1/collector/ads/"
                    +:+ ad_type +:+ "/" +:+ name;
         req_headers := headers (session (self st));
         req_params := None;
         req_json := None |} ]
  /\
  sent (snd (get_collector_ad "schedd" "schedd@host.example.com" st))
  = sent st ++
    [ {| req_method := GET;
         req_url := base_url (self st)
                    +:+ "/api/v1/collector/ads/schedd/schedd@host.example.com";
         req_headers := headers (session (self st));
         req_params := None;
         req_json := None |} ].
Proof.
  split.
  - change (get_collector_ad ad_type name) with (invoke (GetCollectorAd ad_type name)).
    now rewrite invoke_sent.
  - change (get_collector_ad "schedd" "schedd@host.example.com")
      with (invoke (GetCollectorAd "schedd" "schedd@host.example.com")).
    now rewrite invoke_sent.
Qed.

(** ** Every method *)

(** C9: every call hands exactly one request to the session and leaves the
    client object as it was, whatever the outcome of the call: the stored
    [base_url], the [token] and the session headers after the call are those
    before it. *)
Theorem call_sends_once_and_keeps_client (c : Call) (st : State) :
  (exists req : Request, sent (snd (invoke c st)) = sent st ++ [req]) /\
  self (snd (invoke c st)) = self st /\
  base_url (self (snd (invoke c st))) = base_url (self st) /\
  token (self (snd (invoke c st))) = token (self st) /\
  headers (session (self (snd (invoke c st)))) = headers (session (self st)).
Proof.
  rewrite invoke_self. repeat split.
  exists (request_of (self st) c). apply invoke_sent.
Qed.

(** C2 (amended): for every call, the one request it sends decides the
    outcome: a response whose status code lies in 400..599 makes the call
    raise [HTTPError] carrying that response, status code included; a
    transport failure makes it raise [ConnectionError]; either way the
    exception leaves the method, and no second request is sent. *)
Theorem failed_exchange_raises (c : Call) (st : State) :
  exists req : Request,
    sent (snd (invoke c st)) = sent st ++ [req] /\
    (forall r : Response,
        network (sent st) req = Answered r ->
        400 <= status_code r < 600 ->
        fst (invoke c st) = Raise (HTTPError r)) /\
    (network (sent st) req = Unreachable ->
     fst (invoke c st) = Raise ConnectionError).
Proof.
  exists (request_of (self st) c). rewrite invoke_run. simpl.
  split; [reflexivity|]. split.
  - intros r Hr Herr. rewrite Hr. simpl.
    apply error_status_iff in Herr. now rewrite Herr.
  - intros Hr. now rewrite Hr.
Qed.

(** C8: for every call, when the response to its request has no error
    status and its body decodes to a document, the call returns that very
    document; so when the server answers the request of
    [query_collector_ads()] with [{"ads": [{"Name": "a"}, {"Name": "b"}]}],
    the result's [ads] is the list of the two advertisements, [a] before
    [b]. *)
Theorem response_returned_verbatim (c : Call) (st : State) :
  (exists req : Request,
      sent (snd (invoke c st)) = sent st ++ [req] /\
      forall (r : Response) (doc : json),
        network (sent st) req = Answered r ->
        ~ 400 <= status_code r < 600 ->
        decoded r = Some doc ->
        fst (invoke c st) = Return doc)
  /\
  (forall r : Response,
      network (sent st)
        {| req_method := GET;
           req_url := base_url (self st) +:+ "/api/v1/collector/ads";
           req_headers := headers (session (self st));
           req_params := Some [];
           req_json := None |} = Answered r ->
      ~ 400 <= status_code r < 600 ->
      decoded r = Some two_ads ->
      exists answer : json,
        fst (query_collector_ads None st) = Return answer /\
        json_get "ads" answer
        = Some (JArray [JObject [("Name", JString "a")];
                        JObject [("Name", JString "b")]])).
Proof.
  assert (Hsettle : forall (r : Response) (doc : json),
             ~ 400 <= status_code r < 600 -> decoded r = Some doc ->
             settle (Answered r) = Return doc).
  { intros r doc Hok Hdoc. simpl. rewrite Hdoc.
    destruct (error_status (status_code r)) eqn:Herr; [|reflexivity].
    apply error_status_iff in Herr. contradiction. }
  split.
  - exists (request_of (self st) c). rewrite invoke_run. simpl.
    split; [reflexivity|]. intros r doc Hr Hok Hdoc. rewrite Hr. now apply Hsettle.
  - intros r Hr Hok Hdoc. exists two_ads. split; [|reflexivity].
    change (query_collector_ads None) with (invoke (QueryCollectorAds None)).
    rewrite invoke_run. simpl. simpl in Hsettle. rewrite Hr. now apply Hsettle.
Qed.

(** ** The constructor *)

Lemma init_run (base_url0 : string) (token0 : option string) (st : State) :
  init base_url0 token0 st
  = (Return tt,
     {| self := {| base_url := rstrip "/" base_url0;
                   token := token0;
                   session := if truthy token0
                              then {| headers := <["Authorization" := "Bearer " +:+ str_of token0]> default_headers |}
                              else {| headers := default_headers |} |};
        sent := sent st |}).
Proof.
  unfold init, set_base_url, set_token, set_session, bind, requests_Session,
    get_self, set_self, ret.
  now destruct (truthy token0).
Qed.

(** C7: for every [base_url] (the empty one included) and every token, the
    constructor returns normally, stores [base_url] without its trailing
    slashes (what it stores does not end in a slash, and [base_url] is that
    followed by slashes only), stores the token as passed, and sends
    nothing; the client it leaves serves any sequence of calls, each call
    sending its request and none altering the client. *)
Theorem constructor_contract (base_url0 : string) (token0 : option string) (st : State) :
  let st' := constructed base_url0 token0 st in
  fst (init base_url0 token0 st) = Return tt /\
  (exists n : nat, base_url0 = base_url (self st') +:+ repeat_char "/" n) /\
  ends_with "/" (base_url (self st')) = false /\
  token (self st') = token0 /\
  sent st' = sent st /\
  forall cs : list Call,
    self (run_calls cs st') = self st' /\
    List.length (sent (run_calls cs st')) = (List.length (sent st) + List.length cs)%nat.
Proof.
  unfold constructed. rewrite init_run. simpl.
  split; [reflexivity|]. split; [apply rstrip_split|].
  split; [apply rstrip_ends|]. split; [reflexivity|]. split; [reflexivity|].
  intros cs. rewrite run_calls_self, run_calls_sent. simpl.
  split; [reflexivity|]. now rewrite length_app, length_map.
Qed.

(** C6 (amended): on a client constructed with a non-empty token, every
    request of every call carries the header [Authorization] with the value
    ["Bearer "] followed by the token; on a client constructed without a
    token, no request carries an [Authorization] header. *)
Theorem authorization_header
    (base_url0 : string) (token0 : option string) (cs : list Call) (st : State) :
  token0 <> Some "" ->
  exists reqs : list Request,
    sent (run_calls cs (constructed base_url0 token0 st)) = sent st ++ reqs /\
    List.length reqs = List.length cs /\
    Forall (fun req : Request =>
              req_headers req !! "Authorization"
              = match token0 with
                | Some credential => Some ("Bearer " +:+ credential)
                | None => None
                end) reqs.
Proof.
  intros Htoken. unfold constructed. rewrite init_run. simpl.
  rewrite run_calls_sent. simpl. eexists. split; [reflexivity|].
  split; [apply length_map|].
  apply Forall_map, Forall_forall. intros c _. rewrite request_of_headers. simpl.
  destruct token0 as [[|a t]|]; simpl.
  - congruence.
  - apply lookup_insert_eq.
  - exact default_no_auth.
Qed.

(** C10: an empty string passed for an optional parameter does what leaving
    the parameter out does.  [hold_job] and [release_job] with the reason
    [""] run as without a reason and send the empty JSON object;
    [query_collector_ads] and [query_collector_ads_by_type] with the
    constraint [""] run as without a constraint and send no query
    parameter; a client constructed with the token [""] has the session and
    the base URL of one constructed without a token, and none of its
    requests carries an [Authorization] header. *)
Theorem empty_string_is_omitted
    (job_id ad_type base_url0 : string) (cs : list Call) (st : State) :
  (hold_job job_id (Some "") st = hold_job job_id None st /\
   exists req : Request,
     sent (snd (hold_job job_id (Some "") st)) = sent st ++ [req] /\
     req_json req = Some (JObject []))
  /\
  (release_job job_id (Some "") st = release_job job_id None st /\
   exists req : Request,
     sent (snd (release_job job_id (Some "") st)) = sent st ++ [req] /\
     req_json req = Some (JObject []))
  /\
  (query_collector_ads (Some "") st = query_collector_ads None st /\
   exists req : Request,
     sent (snd (query_collector_ads (Some "") st)) = sent st ++ [req] /\
     req_params req = Some [])
  /\
  (query_collector_ads_by_type ad_type (Some "") st
   = query_collector_ads_by_type ad_type None st /\
   exists req : Request,
     sent (snd (query_collector_ads_by_type ad_type (Some "") st)) = sent st ++ [req] /\
     req_params req = Some [])
  /\
  (session (self (constructed base_url0 (Some "") st))
   = session (self (constructed base_url0 None st)) /\
   base_url (self (constructed base_url0 (Some "") st))
   = base_url (self (constructed base_url0 None st)) /\
   exists reqs : list Request,
     sent (run_calls cs (constructed base_url0 (Some "") st)) = sent st ++ reqs /\
     sent (run_calls cs (constructed base_url0 None st)) = sent st ++ reqs /\
     List.length reqs = List.length cs /\
     Forall (fun req : Request => req_headers req !! "Authorization" = None) reqs).
Proof.
  repeat apply conj; try reflexivity.
  - exists (request_of (self st) (HoldJob job_id (Some ""))). split; [|reflexivity].
    apply (invoke_sent (HoldJob job_id (Some ""))).
  - exists (request_of (self st) (ReleaseJob job_id (Some ""))). split; [|reflexivity].
    apply (invoke_sent (ReleaseJob job_id (Some ""))).
  - exists (request_of (self st) (QueryCollectorAds (Some ""))). split; [|reflexivity].
    apply (invoke_sent (QueryCollectorAds (Some ""))).
  - exists (request_of (self st) (QueryCollectorAdsByType ad_type (Some ""))).
    split; [|reflexivity].
    apply (invoke_sent (QueryCollectorAdsByType ad_type (Some ""))).
  - unfold constructed. rewrite !init_run. simpl. rewrite !run_calls_sent. simpl.
    eexists. split; [reflexivity|]. split.
    + reflexivity.
    + split; [apply length_map|].
      apply Forall_map, Forall_forall. intros c _. rewrite request_of_headers. simpl.
      exact default_no_auth.
Qed.

(** ** The other methods *)

Lemma rstrip_repeat (c : ascii) (n : nat) : rstrip c (repeat_char c n) = "".
Proof.
  induction n as [|n IH]; simpl; [reflexivity|].
  rewrite IH. now rewrite Ascii.eqb_refl.
Qed.

Lemma rstrip_app_repeat (c : ascii) (s : string) (n : nat) :
  rstrip c (s +:+ repeat_char c n) = rstrip c s.
Proof.
  induction s as [|a s IH]; simpl.
  - apply rstrip_repeat.
  - now rewrite IH.
Qed.

Lemma rstrip_fixed (c : ascii) (s : string) :
  ends_with c s = false -> rstrip c s = s.
Proof.
  induction s as [|a s IH]; simpl; [reflexivity|].
  destruct s as [|b s'].
  - intros Hne. simpl. now rewrite Hne.
  - intros Hends. rewrite (IH Hends). reflexivity.
Qed.

(** X1: [release_job] hands exactly one request to the session, a POST to
    [{base_url}/api/v1/jobs/{id}/release]; its JSON body is
    [{"reason": value}] for a non-empty reason and the empty object for no
    reason or an empty one. *)
Theorem release_job_request (job_id : string) (reason : option string) (st : State) :
  sent (snd (release_job job_id reason st))
  = sent st ++
    [ {| req_method := POST;
         req_url := base_url (self st) +:+ "/api/v1/jobs/" +:+ job_id +:+ "/release";
         req_headers := headers (session (self st));
         req_params := None;
         req_json := Some (JObject match reason with
                                   | Some (String a v) => [("reason", JString (String a v))]
                                   | _ => []
                                   end) |} ].
Proof.
  change (release_job job_id reason) with (invoke (ReleaseJob job_id reason)).
  rewrite invoke_sent. now destruct reason as [[|a v]|].
Qed.

(** X2: [bulk_hold_jobs] hands exactly one request to the session, a POST
    to [{base_url}/api/v1/jobs/hold]; its JSON body has the key
    [constraint] first, with the constraint as passed (an empty one
    included), and after it the key [reason] exactly when the reason is a
    non-empty string. *)
Theorem bulk_hold_jobs_body (constraint : string) (reason : option string) (st : State) :
  sent (snd (bulk_hold_jobs constraint reason st))
  = sent st ++
    [ {| req_method := POST;
         req_url := base_url (self st) +:+ "/api/v1/jobs/hold";
         req_headers := headers (session (self st));
         req_params := None;
         req_json := Some (JObject (("constraint", JString constraint)
                                    :: match reason with
                                       | Some (String a v) => [("reason", JString (String a v))]
                                       | _ => []
                                       end)) |} ].
Proof.
  change (bulk_hold_jobs constraint reason) with (invoke (BulkHoldJobs constraint reason)).
  rewrite invoke_sent. now destruct reason as [[|a v]|].
Qed.

(** X3: [bulk_release_jobs] hands exactly one request to the session, a
    POST to [{base_url}/api/v1/jobs/release], with the body of
    [bulk_hold_jobs]: [constraint] first, then [reason] exactly when the
    reason is a non-empty string. *)
Theorem bulk_release_jobs_request (constraint : string) (reason : option string) (st : State) :
  sent (snd (bulk_release_jobs constraint reason st))
  = sent st ++
    [ {| req_method := POST;
         req_url := base_url (self st) +:+ "/api/v1/jobs/release";
         req_headers := headers (session (self st));
         req_params := None;
         req_json := Some (JObject (("constraint", JString constraint)
                                    :: match reason with
                                       | Some (String a v) => [("reason", JString (String a v))]
                                       | _ => []
                                       end)) |} ].
Proof.
  change (bulk_release_jobs constraint reason)
    with (invoke (BulkReleaseJobs constraint reason)).
  rewrite invoke_sent. now destruct reason as [[|a v]|].
Qed.

(** X4: [query_collector_ads_by_type] hands exactly one request to the
    session, a GET to [{base_url}/api/v1/collector/ads/{ad_type}] without a
    body; its query parameters are the one pair [constraint] for a
    non-empty constraint and empty otherwise. *)
Theorem query_collector_ads_by_type_request
    (ad_type : string) (constraint : option string) (st : State) :
  sent (snd (query_collector_ads_by_type ad_type constraint st))
  = sent st ++
    [ {| req_method := GET;
         req_url := base_url (self st) +:+ "/api/v1/collector/ads/" +:+ ad_type;
         req_headers := headers (session (self st));
         req_params := Some match constraint with
                            | Some (String a v) => [("constraint", String a v)]
                            | _ => []
                            end;
         req_json := None |} ].
Proof.
  change (query_collector_ads_by_type ad_type constraint)
    with (invoke (QueryCollectorAdsByType ad_type constraint)).
  rewrite invoke_sent. now destruct constraint as [[|a v]|].
Qed.

(** X5: for every constraint, [query_collector_ads] sends its GET with the
    one query parameter [constraint], holding the constraint as passed,
    when the constraint is a non-empty string, and with no query parameter
    otherwise. *)
Theorem query_collector_ads_params (constraint : option string) (st : State) :
  sent (snd (query_collector_ads constraint st))
  = sent st ++
    [ {| req_method := GET;
         req_url := base_url (self st) +:+ "/api/v1/collector/ads";
         req_headers := headers (session (self st));
         req_params := Some match constraint with
                            | Some (String a v) => [("constraint", String a v)]
                            | _ => []
                            end;
         req_json := None |} ].
Proof.
  change (query_collector_ads constraint) with (invoke (QueryCollectorAds constraint)).
  rewrite invoke_sent. now destruct constraint as [[|a v]|].
Qed.

(** ** Outcomes *)

(** X6: for every call, a response without error status whose body is not
    a JSON document makes the call raise [JSONDecodeError]; the request has
    been sent by then, once. *)
Theorem undecodable_body_raises (c : Call) (st : State) :
  exists req : Request,
    sent (snd (invoke c st)) = sent st ++ [req] /\
    forall r : Response,
      network (sent st) req = Answered r ->
      ~ 400 <= status_code r < 600 ->
      decoded r = None ->
      fst (invoke c st) = Raise JSONDecodeError.
Proof.
  exists (request_of (self st) c). rewrite invoke_run. simpl.
  split; [reflexivity|]. intros r Hr Hok Hdoc. rewrite Hr. simpl. rewrite Hdoc.
  destruct (error_status (status_code r)) eqn:Herr; [|reflexivity].
  apply error_status_iff in Herr. contradiction.
Qed.

(** X7: a call returns a document only when the server answered its
    request with a response outside the error statuses whose body decodes
    to that document; no call makes up a result. *)
Theorem returned_only_if_answered (c : Call) (st : State) (doc : json) :
  fst (invoke c st) = Return doc ->
  exists (req : Request) (r : Response),
    sent (snd (invoke c st)) = sent st ++ [req] /\
    network (sent st) req = Answered r /\
    ~ 400 <= status_code r < 600 /\
    decoded r = Some doc.
Proof.
  rewrite invoke_run. simpl. intros Hret.
  exists (request_of (self st) c).
  destruct (network (sent st) (request_of (self st) c)) as [|r]; simpl in Hret;
    [discriminate|].
  exists r. split; [reflexivity|]. split; [reflexivity|].
  destruct (error_status (status_code r)) eqn:Herr; [discriminate|].
  split.
  - intros H. apply error_status_iff in H. congruence.
  - destruct (decoded r); [congruence | discriminate].
Qed.

(** X8: the exception a call raises tells what happened to its request:
    [HTTPError] holds the very response the server gave and that response
    has a status from 400 to 599; [ConnectionError] means there was no
    response; [JSONDecodeError] means a response outside the error statuses
    with an undecodable body. *)
Theorem raised_only_if (c : Call) (st : State) (e : exn) :
  fst (invoke c st) = Raise e ->
  exists req : Request,
    sent (snd (invoke c st)) = sent st ++ [req] /\
    match e with
    | HTTPError r => network (sent st) req = Answered r /\ 400 <= status_code r < 600
    | ConnectionError => network (sent st) req = Unreachable
    | JSONDecodeError =>
        exists r : Response,
          network (sent st) req = Answered r /\
          ~ 400 <= status_code r < 600 /\ decoded r = None
    end.
Proof.
  rewrite invoke_run. simpl. intros Hraise.
  exists (request_of (self st) c). split; [reflexivity|].
  destruct (network (sent st) (request_of (self st) c)) as [|r]; simpl in Hraise.
  - injection Hraise as <-. reflexivity.
  - destruct (error_status (status_code r)) eqn:Herr.
    + injection Hraise as <-. split; [reflexivity | now apply error_status_iff].
    + destruct (decoded r) eqn:Hdoc; [discriminate|].
      injection Hraise as <-. exists r. split; [reflexivity|]. split; [|exact Hdoc].
      intros H. apply error_status_iff in H. congruence.
Qed.

(** ** What every request looks like *)

(** X9: the four job methods send a POST with a JSON object as body and no
    query parameters; the three collector methods send a GET without a
    body. *)
Theorem method_follows_kind (c : Call) (st : State) :
  exists req : Request,
    sent (snd (invoke c st)) = sent st ++ [req] /\
    if is_job_call c
    then req_method req = POST /\ req_params req = None /\
         exists members : dict json, req_json req = Some (JObject members)
    else req_method req = GET /\ req_json req = None.
Proof.
  exists (request_of (self st) c). split; [apply invoke_sent|].
  destruct c; simpl; repeat split; eexists; reflexivity.
Qed.

(** X10: the JSON body of a request has no member but [constraint] and
    [reason], each with a string as value, and a [reason] member is never
    the empty string: an absent or empty reason leaves the key out. *)
Theorem body_members (c : Call) (st : State) :
  exists req : Request,
    sent (snd (invoke c st)) = sent st ++ [req] /\
    forall members : dict json,
      req_json req = Some (JObject members) ->
      Forall (fun kv : string * json =>
                (fst kv = "constraint" \/ fst kv = "reason") /\
                exists v : string,
                  snd kv = JString v /\ (fst kv = "reason" -> v <> ""))
             members.
Proof.
  exists (request_of (self st) c). split; [apply invoke_sent|].
  intros members Hbody.
  destruct c as [j r|j r|k r|k r|k|t k|t n]; simpl in Hbody; try discriminate;
    destruct r as [[|a v]|]; simpl in Hbody; injection Hbody as <-;
    repeat match goal with
           | |- Forall _ (_ :: _) =>
               constructor;
               [split; [simpl; auto | eexists; split; [reflexivity | simpl; congruence]]|]
           end;
    constructor.
Qed.

(** X11: the query parameters of a request have no entry but [constraint],
    and its value is never the empty string: an absent or empty constraint
    leaves the parameter out. *)
Theorem query_parameters (c : Call) (st : State) :
  exists req : Request,
    sent (snd (invoke c st)) = sent st ++ [req] /\
    forall params : dict string,
      req_params req = Some params ->
      Forall (fun kv : string * string => fst kv = "constraint" /\ snd kv <> "") params.
Proof.
  exists (request_of (self st) c). split; [apply invoke_sent|].
  intros params Hparams.
  destruct c as [j r|j r|k r|k r|k|t k|t n]; simpl in Hparams; try discriminate;
    destruct k as [[|a v]|]; simpl in Hparams; injection Hparams as <-;
    repeat constructor; simpl; discriminate.
Qed.

(** X12: the URL of every request is the stored base URL followed by a
    path under [/api/v1/]: [/api/v1/jobs/...] for the job methods and
    [/api/v1/collector/ads...] for the collector methods. *)
Theorem url_under_api_v1 (c : Call) (st : State) :
  exists (req : Request) (rest : string),
    sent (snd (invoke c st)) = sent st ++ [req] /\
    req_url req
    = base_url (self st)
      +:+ (if is_job_call c then "/api/v1/jobs/" else "/api/v1/collector/ads")
      +:+ rest.
Proof.
  exists (request_of (self st) c).
  destruct c as [j r|j r|k r|k r|k|t k|t n].
  - exists (j +:+ "/hold"). split; [apply invoke_sent | reflexivity].
  - exists (j +:+ "/release"). split; [apply invoke_sent | reflexivity].
  - exists "hold". split; [apply invoke_sent | reflexivity].
  - exists "release". split; [apply invoke_sent | reflexivity].
  - exists "". split; [apply invoke_sent | reflexivity].
  - exists ("/" +:+ t). split; [apply invoke_sent | reflexivity].
  - exists ("/" +:+ t +:+ "/" +:+ n). split; [apply invoke_sent | reflexivity].
Qed.

(** X13: on a client just constructed, every request of every call carries
    the headers of a fresh session, but for [Authorization]: a non-empty
    token sets it to ["Bearer "] and the token, replacing any value a fresh
    session had, and no token or an empty one leaves it as a fresh session
    has it. *)
Theorem session_headers_kept
    (base_url0 : string) (token0 : option string) (cs : list Call) (st : State) :
  exists reqs : list Request,
    sent (run_calls cs (constructed base_url0 token0 st)) = sent st ++ reqs /\
    List.length reqs = List.length cs /\
    Forall (fun req : Request =>
              (forall k : string,
                  k <> "Authorization" ->
                  req_headers req !! k = default_headers !! k) /\
              req_headers req !! "Authorization"
              = if truthy token0
                then Some ("Bearer " +:+ str_of token0)
                else default_headers !! "Authorization") reqs.
Proof.
  unfold constructed. rewrite init_run. simpl.
  rewrite run_calls_sent. simpl. eexists. split; [reflexivity|].
  split; [apply length_map|].
  apply Forall_map, Forall_forall. intros c _. rewrite request_of_headers. simpl.
  destruct (truthy token0); simpl.
  - split; [|apply lookup_insert_eq].
    intros k Hk. apply lookup_insert_ne. congruence.
  - split; reflexivity.
Qed.

(** ** More on the constructor *)

(** X14: trailing slashes of [base_url] make no difference: the
    constructor leaves the same state for [base_url] and for [base_url]
    followed by any number of slashes. *)
Theorem trailing_slashes_ignored
    (base_url0 : string) (n : nat) (token0 : option string) (st : State) :
  constructed (base_url0 +:+ repeat_char "/" n) token0 st
  = constructed base_url0 token0 st.
Proof. unfold constructed. rewrite !init_run. simpl. now rewrite rstrip_app_repeat. Qed.

(** X15: a [base_url] that does not end in a slash is stored as it is. *)
Theorem base_url_kept (base_url0 : string) (token0 : option string) (st : State) :
  ends_with "/" base_url0 = false ->
  base_url (self (constructed base_url0 token0 st)) = base_url0.
Proof.
  intros Hends. unfold constructed. rewrite init_run. simpl.
  now apply rstrip_fixed.
Qed.

(** X16: a [base_url] made of slashes only, the empty one included, is
    stored as the empty string, and every call of such a client sends a
    URL that begins with [/api/v1/], without scheme or host. *)
Theorem slashes_only_base_url (n : nat) (token0 : option string) (c : Call) (st : State) :
  let st' := constructed (repeat_char "/" n) token0 st in
  base_url (self st') = "" /\
  exists (req : Request) (rest : string),
    sent (snd (invoke c st')) = sent st ++ [req] /\
    req_url req = "/api/v1/" +:+ rest.
Proof.
  unfold constructed. rewrite init_run. simpl. rewrite rstrip_repeat.
  split; [reflexivity|].
  rewrite invoke_sent. simpl.
  destruct c as [j r|j r|k r|k r|k|t k|t m];
    eexists; eexists; (split; [reflexivity|]); simpl; reflexivity.
Qed.

(** ** The script *)

Lemma call_init_run (base_url0 : string) (token0 : option string) (p : Process) :
  call (init base_url0 token0) p
  = (Fine tt, {| world := constructed base_url0 token0 (world p); stdout := stdout p |}).
Proof. unfold call, constructed. now rewrite init_run. Qed.

Lemma py_print_run (x : printed) (p : Process) :
  py_print x p = (Fine tt, {| world := world p; stdout := stdout p ++ [x] |}).
Proof. reflexivity. Qed.

(** A block that prints the result as it is. *)
Lemma dump_block_run (title : string) (c : Call) (p : Process) :
  (py_print (Text title) ;;
   try_except
     (result <- call (invoke c) ;; py_print (JsonDump result))
     (fun e => py_print (ErrorOf e)) ;;
   py_print (Text ""))%main p
  = (Fine tt,
     {| world := snd (invoke c (world p));
        stdout := stdout p ++ [Text title;
                               match fst (invoke c (world p)) with
                               | Return doc => JsonDump doc
                               | Raise e => ErrorOf e
                               end;
                               Text ""] |}).
Proof.
  unfold pbind, try_except, call, py_print. simpl.
  destruct (invoke c (world p)) as [[doc|e] st]; simpl;
    rewrite <- !app_assoc; reflexivity.
Qed.

(** Closes the side conditions of a block: which result of the call leads
    to which end of the block. *)
Ltac block_crush :=
  repeat split; intros;
  repeat match goal with
         | H : Return _ = Return _ |- _ => injection H as <-
         | H : Raise _ = Raise _ |- _ => injection H as <-
         | H : Return _ = Raise _ |- _ => discriminate H
         | H : Raise _ = Return _ |- _ => discriminate H
         end;
  simpl in *;
  repeat match goal with
         | H : dict_get ?k ?m = _, H' : context [dict_get ?k ?m] |- _ => rewrite H in H'
         end;
  try discriminate; try congruence;
  try (exfalso;
       match goal with
       | H : forall m, _ <> JObject m |- _ => eapply H; reflexivity
       end).

(** A block that counts the advertisements of the result. *)
Lemma count_block_run (title what : string) (c : Call) (st : State) :
  exists (res : outcome unit) (out : list printed),
    (forall o : list printed,
        (py_print (Text title) ;;
         try_except
           (result <- call (invoke c) ;;
            ads <- py_get result "ads" (JArray []) ;;
            n <- py_len ads ;;
            py_print (Text ("Found " +:+ decimal n +:+ what)))
           (fun e => py_print (ErrorOf e)) ;;
         py_print (Text ""))%main {| world := st; stdout := o |}
        = (res, {| world := snd (invoke c st); stdout := o ++ Text title :: out |})) /\
    reads_ads c st res out.
Proof.
  unfold reads_ads, pbind, try_except, call, py_print. simpl.
  destruct (invoke c st) as [[doc|e] st']; simpl.
  - destruct doc as [| | | | |items|members]; simpl;
      try match goal with
          | |- context [dict_get "ads" ?m] =>
              destruct (dict_get "ads" m) as [[| | | |v|items|ms]|] eqn:Hads; simpl
          end;
      eexists; eexists;
      (split; [intros o; rewrite <- ?app_assoc; simpl; reflexivity|]);
      block_crush.
  - exists (Fine tt), [ErrorOf e; Text ""].
    split; [intros o; rewrite <- !app_assoc; reflexivity|]. block_crush.
Qed.

(** The block of example 5, which also prints the first advertisement. *)
Lemma example_5_run (st : State) :
  exists (res : outcome unit) (out : list printed),
    (forall o : list printed,
        example_5 {| world := st; stdout := o |}
        = (res, {| world := snd (invoke (QueryCollectorAds None) st);
                   stdout := o ++ Text "5. Query all collector ads:" :: out |})) /\
    reads_ads (QueryCollectorAds None) st res out.
Proof.
  unfold example_5, reads_ads, pbind, try_except, call, py_print. simpl.
  destruct (query_collector_ads None st) as [[doc|e] st']; simpl.
  - destruct doc as [| | | | |items|members]; simpl;
      try match goal with
          | |- context [dict_get "ads" ?m] =>
              destruct (dict_get "ads" m) as [[| | | |[|a v]|[|x items]|[|kv ms]]|] eqn:Hads;
              simpl; rewrite ?Hads; simpl
          end;
      eexists; eexists;
      (split; [intros o; rewrite <- ?app_assoc; simpl; reflexivity|]);
      block_crush.
  - exists (Fine tt), [ErrorOf e; Text ""].
    split; [intros o; rewrite <- !app_assoc; reflexivity|]. block_crush.
Qed.

Lemma example_1_run (args : Args) (p : Process) :
  example_1 args p
  = (Fine tt,
     {| world := snd (invoke (HoldJob (args_job_id args) (Some "Holding for maintenance"))
                        (world p));
        stdout := stdout p ++
          dump_lines "1. Hold a specific job:"
            (fst (invoke (HoldJob (args_job_id args) (Some "Holding for maintenance"))
                    (world p))) |}).
Proof.
  exact (dump_block_run "1. Hold a specific job:"
           (HoldJob (args_job_id args) (Some "Holding for maintenance")) p).
Qed.

Lemma example_2_run (args : Args) (p : Process) :
  example_2 args p
  = (Fine tt,
     {| world := snd (invoke (ReleaseJob (args_job_id args) (Some "Maintenance complete"))
                        (world p));
        stdout := stdout p ++
          dump_lines "2. Release a held job:"
            (fst (invoke (ReleaseJob (args_job_id args) (Some "Maintenance complete"))
                    (world p))) |}).
Proof.
  exact (dump_block_run "2. Release a held job:"
           (ReleaseJob (args_job_id args) (Some "Maintenance complete")) p).
Qed.

Lemma example_3_run (p : Process) :
  let c := BulkHoldJobs ("Owner == " +:+ dquote +:+ "alice" +:+ dquote)
             (Some "Bulk maintenance") in
  example_3 p
  = (Fine tt,
     {| world := snd (invoke c (world p));
        stdout := stdout p ++
          dump_lines "3. Hold all jobs for user 'alice':" (fst (invoke c (world p))) |}).
Proof.
  exact (dump_block_run "3. Hold all jobs for user 'alice':"
           (BulkHoldJobs ("Owner == " +:+ dquote +:+ "alice" +:+ dquote)
              (Some "Bulk maintenance")) p).
Qed.

Lemma example_4_run (p : Process) :
  example_4 p
  = (Fine tt,
     {| world := snd (invoke (BulkReleaseJobs "JobStatus == 5" None) (world p));
        stdout := stdout p ++
          dump_lines "4. Release all held jobs:"
            (fst (invoke (BulkReleaseJobs "JobStatus == 5" None) (world p))) |}).
Proof.
  exact (dump_block_run "4. Release all held jobs:"
           (BulkReleaseJobs "JobStatus == 5" None) p).
Qed.

Lemma example_8_run (p : Process) :
  example_8 p
  = (Fine tt,
     {| world := snd (invoke (GetCollectorAd "schedd" "schedd@host.example.com") (world p));
        stdout := stdout p ++
          dump_lines "8. Get specific schedd by name:"
            (fst (invoke (GetCollectorAd "schedd" "schedd@host.example.com") (world p))) |}).
Proof.
  exact (dump_block_run "8. Get specific schedd by name:"
           (GetCollectorAd "schedd" "schedd@host.example.com") p).
Qed.

Lemma example_6_run (st : State) :
  exists (res : outcome unit) (out : list printed),
    (forall o : list printed,
        example_6 {| world := st; stdout := o |}
        = (res, {| world := snd (invoke (QueryCollectorAdsByType "schedd" None) st);
                   stdout := o ++ Text "6. Query schedd advertisements:" :: out |})) /\
    reads_ads (QueryCollectorAdsByType "schedd" None) st res out.
Proof.
  exact (count_block_run "6. Query schedd advertisements:" " schedd ads"
           (QueryCollectorAdsByType "schedd" None) st).
Qed.

Lemma example_7_run (st : State) :
  exists (res : outcome unit) (out : list printed),
    (forall o : list printed,
        example_7 {| world := st; stdout := o |}
        = (res, {| world := snd (invoke (QueryCollectorAdsByType "startd" (Some "Cpus > 8")) st);
                   stdout := o ++ Text "7. Query startd ads for machines with >8 CPUs:"
                               :: out |})) /\
    reads_ads (QueryCollectorAdsByType "startd" (Some "Cpus > 8")) st res out.
Proof.
  exact (count_block_run "7. Query startd ads for machines with >8 CPUs:" " matching ads"
           (QueryCollectorAdsByType "startd" (Some "Cpus > 8")) st).
Qed.

(** The whole run of [main]: the examples that print their result as it is
    always go through; examples 5, 6 and 7 end as [reads_ads] says, and the
    first of them that throws ends the script. *)
Lemma main_run (args : Args) (p : Process) :
  let st0 := constructed (args_url args) (args_token args) (world p) in
  let w := fun k : nat => run_calls (firstn k (main_calls args)) st0 in
  let c1 := HoldJob (args_job_id args) (Some "Holding for maintenance") in
  let c2 := ReleaseJob (args_job_id args) (Some "Maintenance complete") in
  let c3 := BulkHoldJobs ("Owner == " +:+ dquote +:+ "alice" +:+ dquote)
              (Some "Bulk maintenance") in
  let c4 := BulkReleaseJobs "JobStatus == 5" None in
  let c5 := QueryCollectorAds None in
  let c6 := QueryCollectorAdsByType "schedd" None in
  let c7 := QueryCollectorAdsByType "startd" (Some "Cpus > 8") in
  let c8 := GetCollectorAd "schedd" "schedd@host.example.com" in
  let o4 := stdout p ++ banner
            ++ dump_lines "1. Hold a specific job:" (fst (invoke c1 (w 0%nat)))
            ++ dump_lines "2. Release a held job:" (fst (invoke c2 (w 1%nat)))
            ++ dump_lines "3. Hold all jobs for user 'alice':" (fst (invoke c3 (w 2%nat)))
            ++ dump_lines "4. Release all held jobs:" (fst (invoke c4 (w 3%nat))) in
  exists (res5 : outcome unit) (out5 : list printed)
         (res6 : outcome unit) (out6 : list printed)
         (res7 : outcome unit) (out7 : list printed),
    reads_ads c5 (w 4%nat) res5 out5 /\
    reads_ads c6 (w 5%nat) res6 out6 /\
    reads_ads c7 (w 6%nat) res7 out7 /\
    let o5 := o4 ++ Text "5. Query all collector ads:" :: out5 in
    let o6 := o5 ++ Text "6. Query schedd advertisements:" :: out6 in
    let o7 := o6 ++ Text "7. Query startd ads for machines with >8 CPUs:" :: out7 in
    main args p
    = match res5 with
      | Thrown e => (Thrown e, {| world := w 5%nat; stdout := o5 |})
      | Fine _ =>
          match res6 with
          | Thrown e => (Thrown e, {| world := w 6%nat; stdout := o6 |})
          | Fine _ =>
              match res7 with
              | Thrown e => (Thrown e, {| world := w 7%nat; stdout := o7 |})
              | Fine _ =>
                  (Fine tt,
                   {| world := w 8%nat;
                      stdout := o7
                                ++ dump_lines "8. Get specific schedd by name:"
                                     (fst (invoke c8 (w 7%nat)))
                                ++ footer |})
              end
          end
      end.
Proof.
  intros st0 w c1 c2 c3 c4 c5 c6 c7 c8 o4.
  subst w c1 c2 c3 c4 c5 c6 c7 c8 o4. cbn [firstn main_calls run_calls].
  match goal with
  | |- context [reads_ads _ ?w4 _ _ /\ reads_ads _ ?w5 _ _ /\ reads_ads _ ?w6 _ _ /\ _] =>
      destruct (example_5_run w4) as (res5 & out5 & E5 & R5);
      destruct (example_6_run w5) as (res6 & out6 & E6 & R6);
      destruct (example_7_run w6) as (res7 & out7 & E7 & R7)
  end.
  exists res5, out5, res6, out6, res7, out7.
  split; [exact R5|]. split; [exact R6|]. split; [exact R7|].
  cbv zeta.
  unfold main.
  unfold pbind at 1. rewrite call_init_run. fold st0. cbv beta iota.
  do 4 (unfold pbind at 1; rewrite py_print_run; cbn [world stdout]).
  unfold pbind at 1. rewrite example_1_run. cbn [world stdout].
  unfold pbind at 1. rewrite example_2_run. cbn [world stdout].
  unfold pbind at 1. rewrite example_3_run. cbn [world stdout].
  unfold pbind at 1. rewrite example_4_run. cbn [world stdout].
  unfold pbind at 1. rewrite E5.
  destruct res5 as [[]|e5];
    [|unfold banner; rewrite <- ?app_assoc; reflexivity].
  unfold pbind at 1. rewrite E6.
  destruct res6 as [[]|e6];
    [|unfold banner; rewrite <- ?app_assoc; reflexivity].
  unfold pbind at 1. rewrite E7.
  destruct res7 as [[]|e7];
    [|unfold banner; rewrite <- ?app_assoc; reflexivity].
  unfold pbind at 1. rewrite example_8_run. cbn [world stdout].
  do 2 (unfold pbind at 1; rewrite py_print_run; cbn [world stdout]).
  rewrite py_print_run. cbn [world stdout].
  unfold banner, footer; rewrite <- ?app_assoc; reflexivity.
Qed.

Lemma invoke_return_decoded (c : Call) (st : State) (doc : json) :
  fst (invoke c st) = Return doc ->
  exists r : Response,
    network (sent st) (request_of (self st) c) = Answered r /\ decoded r = Some doc.
Proof.
  rewrite invoke_run. simpl.
  destruct (network (sent st) (request_of (self st) c)) as [|r]; simpl; [discriminate|].
  destruct (error_status (status_code r)); [discriminate|].
  destruct (decoded r) as [j|] eqn:Hdec; [|discriminate].
  intros H. injection H as ->. now exists r.
Qed.

Lemma reads_ads_not_caught (c : Call) (st : State) (res : outcome unit)
    (out : list printed) (e : pyexn) :
  reads_ads c st res out -> res = Thrown e -> forall x : exn, e <> RequestException x.
Proof. intros (Hno & _) -> x ->. now apply (Hno x). Qed.

(** X17: however the server answers, [main] makes its eight calls in
    order on the client it constructed and stops early only when one of
    examples 5, 6 and 7 throws while reading its result: a script that ends
    normally has made all eight calls, one that ends with an exception has
    made the first five, six or seven, and that exception is never a
    [RequestException], as each such failure is caught and printed. *)
Theorem main_calls_made (args : Args) (p : Process) :
  let st0 := constructed (args_url args) (args_token args) (world p) in
  match fst (main args p) with
  | Fine _ => world (snd (main args p)) = run_calls (main_calls args) st0
  | Thrown e =>
      (forall x : exn, e <> RequestException x) /\
      exists n : nat,
        (5 <= n <= 7)%nat /\
        world (snd (main args p)) = run_calls (firstn n (main_calls args)) st0
  end.
Proof.
  intros st0.
  destruct (main_run args p) as (res5 & out5 & res6 & out6 & res7 & out7
                                 & R5 & R6 & R7 & Hmain).
  cbv zeta in Hmain. rewrite Hmain. clear Hmain.
  destruct res5 as [[]|e5]; cbn [fst snd world].
  2:{ split; [now apply (reads_ads_not_caught _ _ _ _ _ R5)|].
      exists 5%nat. split; [lia | reflexivity]. }
  destruct res6 as [[]|e6]; cbn [fst snd world].
  2:{ split; [now apply (reads_ads_not_caught _ _ _ _ _ R6)|].
      exists 6%nat. split; [lia | reflexivity]. }
  destruct res7 as [[]|e7]; cbn [fst snd world].
  2:{ split; [now apply (reads_ads_not_caught _ _ _ _ _ R7)|].
      exists 7%nat. split; [lia | reflexivity]. }
  reflexivity.
Qed.

(** X18: when every document the server delivers is an object whose
    [ads], if present, is a list, [main] ends normally, whatever the status
    codes and failures on the way, having made all eight calls. *)
Theorem main_completes_on_listings (args : Args) (p : Process) :
  (forall (log : list Request) (req : Request) (r : Response) (doc : json),
      network log req = Answered r -> decoded r = Some doc -> is_listing doc = true) ->
  fst (main args p) = Fine tt /\
  world (snd (main args p))
  = run_calls (main_calls args) (constructed (args_url args) (args_token args) (world p)).
Proof.
  intros Hnet.
  assert (Hfine : forall c st res out, reads_ads c st res out -> res = Fine tt).
  { intros c st res out (_ & Hraise & Hlist & _).
    destruct (fst (invoke c st)) as [doc|e] eqn:Hres.
    - apply (Hlist doc eq_refl).
      destruct (invoke_return_decoded c st doc Hres) as (r & Hr & Hdoc).
      exact (Hnet _ _ _ _ Hr Hdoc).
    - exact (proj1 (Hraise e eq_refl)). }
  destruct (main_run args p) as (res5 & out5 & res6 & out6 & res7 & out7
                                 & R5 & R6 & R7 & Hmain).
  cbv zeta in Hmain. rewrite Hmain. clear Hmain.
  rewrite (Hfine _ _ _ _ R5), (Hfine _ _ _ _ R6), (Hfine _ _ _ _ R7).
  split; reflexivity.
Qed.

(** X19: when the server cannot be reached at all, [main] still ends
    normally after attempting all eight calls, and prints, between the
    banner and the closing lines, for each example its title, the error
    and an empty line. *)
Theorem main_unreachable_output (args : Args) (p : Process) :
  (forall (log : list Request) (req : Request), network log req = Unreachable) ->
  main args p
  = (Fine tt,
     {| world := run_calls (main_calls args)
                   (constructed (args_url args) (args_token args) (world p));
        stdout := stdout p ++ banner ++
          [ Text "1. Hold a specific job:"; ErrorOf ConnectionError; Text "";
            Text "2. Release a held job:"; ErrorOf ConnectionError; Text "";
            Text "3. Hold all jobs for user 'alice':"; ErrorOf ConnectionError; Text "";
            Text "4. Release all held jobs:"; ErrorOf ConnectionError; Text "";
            Text "5. Query all collector ads:"; ErrorOf ConnectionError; Text "";
            Text "6. Query schedd advertisements:"; ErrorOf ConnectionError; Text "";
            Text "7. Query startd ads for machines with >8 CPUs:";
            ErrorOf ConnectionError; Text "";
            Text "8. Get specific schedd by name:"; ErrorOf ConnectionError; Text "" ]
          ++ footer |}).
Proof.
  intros Hnet.
  assert (Hdown : forall c st, fst (invoke c st) = Raise ConnectionError).
  { intros c st. rewrite invoke_run. simpl. now rewrite Hnet. }
  assert (Hblock : forall c st res out,
             reads_ads c st res out ->
             res = Fine tt /\ out = [ErrorOf ConnectionError; Text ""]).
  { intros c st res out (_ & Hraise & _). exact (Hraise _ (Hdown c st)). }
  destruct (main_run args p) as (res5 & out5 & res6 & out6 & res7 & out7
                                 & R5 & R6 & R7 & Hmain).
  cbv zeta in Hmain. rewrite Hmain. clear Hmain.
  destruct (Hblock _ _ _ _ R5) as [-> ->].
  destruct (Hblock _ _ _ _ R6) as [-> ->].
  destruct (Hblock _ _ _ _ R7) as [-> ->].
  rewrite !Hdown. unfold dump_lines, banner, footer.
  rewrite <- ?app_assoc. reflexivity.
Qed.

(** X20: when the result of the fifth call, the query of all collector
    ads, is a document that is not an object, [main] ends there with
    [AttributeError]: the title of example 5 is the last thing printed and
    examples 6, 7 and 8 make no call. *)
Theorem main_stops_on_non_object (args : Args) (p : Process) (doc : json) :
  let st0 := constructed (args_url args) (args_token args) (world p) in
  fst (invoke (QueryCollectorAds None) (run_calls (firstn 4 (main_calls args)) st0))
  = Return doc ->
  (forall members : dict json, doc <> JObject members) ->
  fst (main args p) = Thrown AttributeError /\
  world (snd (main args p)) = run_calls (firstn 5 (main_calls args)) st0 /\
  exists out : list printed,
    stdout (snd (main args p)) = stdout p ++ out ++ [Text "5. Query all collector ads:"].
Proof.
  intros st0 Hdoc Hshape.
  destruct (main_run args p) as (res5 & out5 & res6 & out6 & res7 & out7
                                 & R5 & R6 & R7 & Hmain).
  cbv zeta in Hmain. cbv beta in Hmain, R5. fold st0 in Hmain, R5.
  rewrite Hmain. clear Hmain.
  destruct R5 as (_ & _ & _ & Hbad).
  apply Hbad in Hdoc; [|exact Hshape]. destruct Hdoc as [-> ->].
  cbn [fst snd world stdout].
  split; [reflexivity|]. split; [reflexivity|].
  eexists. rewrite <- app_assoc. reflexivity.
Qed.

(** X21: [main] prints the banner before anything else, and when it ends
    normally the three closing lines are the last thing it prints. *)
Theorem main_output_framed (args : Args) (p : Process) :
  exists rest : list printed,
    stdout (snd (main args p)) = stdout p ++ banner ++ rest /\
    (fst (main args p) = Fine tt -> exists body : list printed, rest = body ++ footer).
Proof.
  destruct (main_run args p) as (res5 & out5 & res6 & out6 & res7 & out7
                                 & R5 & R6 & R7 & Hmain).
  cbv zeta in Hmain. rewrite Hmain. clear Hmain.
  destruct res5 as [[]|e5]; [destruct res6 as [[]|e6]; [destruct res7 as [[]|e7]|]|];
    cbn [fst snd world stdout]; eexists;
    (split; [rewrite <- ?app_assoc; reflexivity|]);
    intros Hfine; try discriminate.
  eexists. rewrite ?app_assoc. reflexivity.
Qed.

(** X22: when the query of all collector ads returns an object whose
    [ads] is a non-empty list, example 5 prints its title, the number of
    advertisements, [First ad:], the first advertisement of the list, and
    an empty line. *)
Theorem example_5_first_ad
    (p : Process) (members : dict json) (x : json) (others : list json) :
  fst (query_collector_ads None (world p)) = Return (JObject members) ->
  dict_get "ads" members = Some (JArray (x :: others)) ->
  example_5 p
  = (Fine tt,
     {| world := snd (query_collector_ads None (world p));
        stdout := stdout p ++
          [ Text "5. Query all collector ads:";
            Text ("Found " +:+ decimal (S (List.length others)) +:+ " ads");
            Text "First ad:";
            JsonDump x;
            Text "" ] |}).
Proof.
  intros Hres Hads.
  unfold example_5, pbind, try_except, call, py_print. simpl.
  destruct (query_collector_ads None (world p)) as [r st]. simpl in Hres. subst r.
  simpl. rewrite Hads. simpl.
  rewrite <- !app_assoc. reflexivity.
Qed.

(** X23: when the query of all collector ads returns an object without
    [ads], or with an empty list of them, example 5 prints its title,
    [Found 0 ads] and an empty line, and no first advertisement. *)
Theorem example_5_no_ads (p : Process) (members : dict json) :
  fst (query_collector_ads None (world p)) = Return (JObject members) ->
  dict_get "ads" members = None \/ dict_get "ads" members = Some (JArray []) ->
  example_5 p
  = (Fine tt,
     {| world := snd (query_collector_ads None (world p));
        stdout := stdout p ++
          [ Text "5. Query all collector ads:"; Text "Found 0 ads"; Text "" ] |}).
Proof.
  intros Hres Hads.
  unfold example_5, pbind, try_except, call, py_print. simpl.
  destruct (query_collector_ads None (world p)) as [r st]. simpl in Hres. subst r.
  simpl. destruct Hads as [Hads|Hads]; rewrite Hads; simpl;
    rewrite <- !app_assoc; reflexivity.
Qed.

(** X24: a run of [main] that ends normally has sent eight requests, in
    this order: two POSTs for the job given on the command line (hold,
    release), the two bulk POSTs, then four GETs to the collector, all
    under the base URL of the command line without its trailing slashes. *)
Theorem main_request_lines (args : Args) (p : Process) :
  fst (main args p) = Fine tt ->
  exists reqs : list Request,
    sent (world (snd (main args p))) = sent (world p) ++ reqs /\
    map (fun req : Request => (req_method req, req_url req)) reqs
    = let base := rstrip "/" (args_url args) in
      [ (POST, base +:+ "/api/v1/jobs/" +:+ args_job_id args +:+ "/hold");
        (POST, base +:+ "/api/v1/jobs/" +:+ args_job_id args +:+ "/release");
        (POST, base +:+ "/api/v1/jobs/hold");
        (POST, base +:+ "/api/v1/jobs/release");
        (GET, base +:+ "/api/v1/collector/ads");
        (GET, base +:+ "/api/v1/collector/ads/schedd");
        (GET, base +:+ "/api/v1/collector/ads/startd");
        (GET, base +:+ "/api/v1/collector/ads/schedd/schedd@host.example.com") ].
Proof.
  destruct (main_run args p) as (res5 & out5 & res6 & out6 & res7 & out7
                                 & R5 & R6 & R7 & Hmain).
  cbv zeta in Hmain. rewrite Hmain. clear Hmain.
  destruct res5 as [[]|e5]; [|cbn [fst]; discriminate].
  destruct res6 as [[]|e6]; [|cbn [fst]; discriminate].
  destruct res7 as [[]|e7]; [|cbn [fst]; discriminate].
  intros _. cbn [fst snd world]. cbv beta.
  rewrite run_calls_sent. unfold constructed. rewrite init_run. cbn [snd self sent].
  eexists. split; reflexivity.
Qed.

End Client.

(** X25: the request a call sends depends on the client alone: calls with
    the same arguments on clients in the same state send the same request,
    whatever the server answered before and whatever was sent before. *)
Theorem request_independent_of_replies
    (network1 network2 : list Request -> Request -> Reply) (c : Call) (st1 st2 : State) :
  self st1 = self st2 ->
  exists req : Request,
    sent (snd (invoke network1 c st1)) = sent st1 ++ [req] /\
    sent (snd (invoke network2 c st2)) = sent st2 ++ [req].
Proof.
  intros Hself. exists (request_of (self st1) c).
  rewrite !invoke_sent, Hself. split; reflexivity.
Qed.

(** ** The model at work *)

Lemma hold_job_request_witness :
  sent (snd (hold_job dead_server "123.0" (Some "Holding for maintenance") example_state))
  = [ {| req_method := POST;
         req_url := "http://localhost:8080/api/v1/jobs/123.0/hold";
         req_headers := requests_default_headers;
         req_params := None;
         req_json := Some (JObject [("reason", JString "Holding for maintenance")]) |} ].
Proof.
  apply (hold_job_request dead_server "123.0" (Some "Holding for maintenance") example_state).
  discriminate.
Defined.

(** [hold_job('123.0', reason='')]: a reason is passed, the body is [{}] and
    not [{"reason": ""}]. *)
Lemma hold_job_empty_reason_body :
  exists req : Request,
    sent (snd (hold_job dead_server "123.0" (Some "") example_state)) = [req] /\
    req_json req = Some (JObject []) /\
    req_json req <> Some (JObject [("reason", JString "")]).
Proof.
  exists (request_of (self example_state) (HoldJob "123.0" (Some ""))).
  split; [reflexivity|]. split; [reflexivity | discriminate].
Qed.

Lemma failed_exchange_raises_witness :
  fst (invoke (mock_server 404 None) (GetCollectorAd "schedd" "nobody") example_state)
  = Raise (HTTPError {| status_code := 404; decoded := None |})
  /\
  fst (invoke dead_server (GetCollectorAd "schedd" "nobody") example_state)
  = Raise ConnectionError.
Proof.
  split.
  - destruct (failed_exchange_raises (mock_server 404 None)
                (GetCollectorAd "schedd" "nobody") example_state) as [req [_ [H _]]].
    apply H; [reflexivity | simpl; lia].
  - destruct (failed_exchange_raises dead_server
                (GetCollectorAd "schedd" "nobody") example_state) as [req [_ [_ H]]].
    apply H. reflexivity.
Defined.

(** A response with status 600 and a JSON body: the status is at least 400,
    and the call returns the body instead of raising. *)
Lemma status_600_is_returned :
  let r := {| status_code := 600; decoded := Some (JObject []) |} in
  (forall (log : list Request) (req : Request),
      mock_server 600 (Some (JObject [])) log req = Answered r) /\
  400 <= status_code r /\
  fst (invoke (mock_server 600 (Some (JObject []))) (QueryCollectorAds None) example_state)
  = Return (JObject []).
Proof. simpl. split; [reflexivity|]. split; [lia | reflexivity]. Qed.

Lemma response_returned_verbatim_witness :
  fst (invoke (collector_server "http://localhost:8080") (QueryCollectorAds None) example_state)
  = Return two_ads
  /\
  exists answer : json,
    fst (query_collector_ads (collector_server "http://localhost:8080") None example_state)
    = Return answer /\
    json_get "ads" answer
    = Some (JArray [JObject [("Name", JString "a")]; JObject [("Name", JString "b")]]).
Proof.
  split.
  - destruct (response_returned_verbatim (collector_server "http://localhost:8080")
                (QueryCollectorAds None) example_state) as [[req [Hsent H]] _].
    apply (app_inj_tail [] [] _ req) in Hsent. destruct Hsent as [_ <-].
    apply (H {| status_code := 200; decoded := Some two_ads |});
      [reflexivity | simpl; lia | reflexivity].
  - destruct (response_returned_verbatim (collector_server "http://localhost:8080")
                (QueryCollectorAds None) example_state) as [_ H].
    apply (H {| status_code := 200; decoded := Some two_ads |});
      [reflexivity | simpl; lia | reflexivity].
Defined.

Lemma authorization_header_witness :
  exists reqs : list Request,
    sent (run_calls (mock_server 200 (Some JNull))
            [HoldJob "123.0" None; GetCollectorAd "schedd" "schedd@host.example.com"]
            (constructed requests_default_headers "http://localhost:8080/" (Some "secret")
               example_state))
    = sent example_state ++ reqs /\
    List.length reqs = 2%nat /\
    Forall (fun req : Request =>
              req_headers req !! "Authorization" = Some "Bearer secret") reqs.
Proof.
  apply (authorization_header (mock_server 200 (Some JNull)) requests_default_headers
           eq_refl "http://localhost:8080/" (Some "secret")
           [HoldJob "123.0" None; GetCollectorAd "schedd" "schedd@host.example.com"]
           example_state).
  discriminate.
Defined.

(** [HTCondorAPI(url, token='')]: a token is passed and stored, and the
    request of a call carries no [Authorization] header, so not
    [Bearer ] followed by the token either. *)
Lemma empty_token_sends_no_header :
  let st := constructed requests_default_headers "http://localhost:8080" (Some "")
              example_state in
  token (self st) = Some "" /\
  exists req : Request,
    sent (snd (invoke dead_server (GetCollectorAd "schedd" "schedd@host.example.com") st))
    = [req] /\
    req_headers req !! "Authorization" = None /\
    req_headers req !! "Authorization" <> Some ("Bearer " +:+ "").
Proof.
  simpl. split; [reflexivity|].
  eexists. split; [reflexivity|]. split; [reflexivity | discriminate].
Qed.

Lemma empty_string_is_omitted_witness :
  hold_job dead_server "123.0" (Some "") example_state
  = hold_job dead_server "123.0" None example_state
  /\
  exists reqs : list Request,
    sent (run_calls dead_server [QueryCollectorAdsByType "startd" (Some "")]
            (constructed requests_default_headers "http://localhost:8080" (Some "")
               example_state))
    = sent example_state ++ reqs /\
    Forall (fun req : Request => req_headers req !! "Authorization" = None) reqs.
Proof.
  destruct (empty_string_is_omitted dead_server requests_default_headers eq_refl
              "123.0" "startd" "http://localhost:8080"
              [QueryCollectorAdsByType "startd" (Some "")] example_state)
    as [[Hhold _] [_ [_ [_ [_ [_ [reqs [Hsent [_ [_ Hall]]]]]]]]]].
  split; [exact Hhold|]. exists reqs. split; [exact Hsent | exact Hall].
Defined.

Example rstrip_base_url : rstrip "/" "http://localhost:8080//" = "http://localhost:8080".
Proof. reflexivity. Qed.

Example bulk_hold_with_reason :
  map req_json
    (sent (snd (bulk_hold_jobs dead_server "Owner == 'alice'" (Some "Bulk maintenance")
                  example_state)))
  = [Some (JObject [("constraint", JString "Owner == 'alice'");
                    ("reason", JString "Bulk maintenance")])].
Proof. reflexivity. Qed.

Lemma undecodable_body_raises_witness :
  fst (invoke (mock_server 204 None) (HoldJob "123.0" None) example_state)
  = Raise JSONDecodeError.
Proof.
  destruct (undecodable_body_raises (mock_server 204 None) (HoldJob "123.0" None)
              example_state) as [req [_ H]].
  apply (H {| status_code := 204; decoded := None |});
    [reflexivity | simpl; lia | reflexivity].
Defined.

Lemma returned_only_if_answered_witness :
  exists (req : Request) (r : Response),
    sent (snd (invoke (collector_server "http://localhost:8080") (QueryCollectorAds None)
                 example_state)) = sent example_state ++ [req] /\
    collector_server "http://localhost:8080" (sent example_state) req = Answered r /\
    ~ 400 <= status_code r < 600 /\
    decoded r = Some two_ads.
Proof.
  apply (returned_only_if_answered (collector_server "http://localhost:8080")
           (QueryCollectorAds None) example_state two_ads).
  reflexivity.
Defined.

Lemma raised_only_if_witness :
  exists req : Request,
    sent (snd (invoke (mock_server 503 None) (BulkReleaseJobs "JobStatus == 5" None)
                 example_state)) = sent example_state ++ [req] /\
    mock_server 503 None (sent example_state) req
    = Answered {| status_code := 503; decoded := None |} /\
    400 <= 503 < 600.
Proof.
  apply (raised_only_if (mock_server 503 None) (BulkReleaseJobs "JobStatus == 5" None)
           example_state (HTTPError {| status_code := 503; decoded := None |})).
  reflexivity.
Defined.

Lemma base_url_kept_witness :
  base_url (self (constructed requests_default_headers "http://localhost:8080" None
                    example_state))
  = "http://localhost:8080".
Proof.
  apply (base_url_kept requests_default_headers "http://localhost:8080" None example_state).
  reflexivity.
Defined.

Lemma collector_server_lists (base : string) (log : list Request) (req : Request)
    (r : Response) (doc : json) :
  collector_server base log req = Answered r -> decoded r = Some doc ->
  is_listing doc = true.
Proof.
  unfold collector_server.
  destruct (String.eqb (req_url req) (base +:+ "/api/v1/collector/ads"));
    intros H; injection H as <-; simpl; intros Hdoc;
    [injection Hdoc as <-; reflexivity | discriminate].
Defined.

Lemma main_completes_on_listings_witness :
  fst (main (collector_server "http://localhost:8080") requests_default_headers
         default_args example_process) = Fine tt.
Proof.
  apply (main_completes_on_listings (collector_server "http://localhost:8080")
           requests_default_headers default_args example_process
           (collector_server_lists "http://localhost:8080")).
Defined.

Lemma main_unreachable_output_witness :
  fst (main dead_server requests_default_headers default_args example_process) = Fine tt /\
  List.length (stdout (snd (main dead_server requests_default_headers default_args
                              example_process))) = 31%nat.
Proof.
  rewrite (main_unreachable_output dead_server requests_default_headers default_args
             example_process (fun _ _ => eq_refl)).
  split; reflexivity.
Defined.

Lemma main_stops_on_non_object_witness :
  fst (main (mock_server 200 (Some (JArray []))) requests_default_headers default_args
         example_process) = Thrown AttributeError.
Proof.
  apply (main_stops_on_non_object (mock_server 200 (Some (JArray [])))
           requests_default_headers default_args example_process (JArray []));
    [reflexivity | discriminate].
Defined.

Lemma example_5_first_ad_witness :
  stdout (snd (example_5 (collector_server "http://localhost:8080") example_process))
  = [ Text "5. Query all collector ads:"; Text "Found 2 ads"; Text "First ad:";
      JsonDump (JObject [("Name", JString "a")]); Text "" ].
Proof.
  rewrite (example_5_first_ad (collector_server "http://localhost:8080") example_process
             [("ads", JArray [JObject [("Name", JString "a")];
                              JObject [("Name", JString "b")]])]
             (JObject [("Name", JString "a")]) [JObject [("Name", JString "b")]]
             eq_refl eq_refl).
  reflexivity.
Defined.

Lemma example_5_no_ads_witness :
  stdout (snd (example_5 (mock_server 200 (Some (JObject []))) example_process))
  = [ Text "5. Query all collector ads:"; Text "Found 0 ads"; Text "" ].
Proof.
  rewrite (example_5_no_ads (mock_server 200 (Some (JObject []))) example_process []
             eq_refl (or_introl eq_refl)).
  reflexivity.
Defined.

Lemma main_request_lines_witness :
  exists reqs : list Request,
    sent (world (snd (main dead_server requests_default_headers default_args
                        example_process))) = reqs /\
    map req_url reqs
    = [ "http://localhost:8080/api/v1/jobs/123.0/hold";
        "http://localhost:8080/api/v1/jobs/123.0/release";
        "http://localhost:8080/api/v1/jobs/hold";
        "http://localhost:8080/api/v1/jobs/release";
        "http://localhost:8080/api/v1/collector/ads";
        "http://localhost:8080/api/v1/collector/ads/schedd";
        "http://localhost:8080/api/v1/collector/ads/startd";
        "http://localhost:8080/api/v1/collector/ads/schedd/schedd@host.example.com" ].
Proof.
  destruct (main_request_lines dead_server requests_default_headers default_args
              example_process eq_refl) as [reqs [Hsent Hlines]].
  exists reqs. split; [exact Hsent|].
  rewrite <- (map_map (fun req : Request => (req_method req, req_url req)) snd).
  rewrite Hlines. reflexivity.
Defined.

Lemma request_independent_of_replies_witness :
  exists req : Request,
    sent (snd (invoke dead_server (GetCollectorAd "schedd" "s") example_state))
    = sent example_state ++ [req] /\
    sent (snd (invoke (mock_server 200 None) (GetCollectorAd "schedd" "s")
                 (snd (invoke (mock_server 200 None) (QueryCollectorAds None)
                         example_state))))
    = sent (snd (invoke (mock_server 200 None) (QueryCollectorAds None) example_state))
      ++ [req].
Proof.
  apply (request_independent_of_replies dead_server (mock_server 200 None)
           (GetCollectorAd "schedd" "s") example_state
           (snd (invoke (mock_server 200 None) (QueryCollectorAds None) example_state))).
  reflexivity.
Defined.
